(** * The process-sales webhook (app/api/process-sales/route.js)

    A shallow embedding of the route handler and of its three helpers,
    [checkPhoneNumberInCTM], [determineAttribution] and [sendToGA4], with the
    JavaScript values they handle, the exceptions they raise and the effects
    they have on the outside world (console, outbound HTTP, clock). *)

From Stdlib Require Import String Ascii ZArith List Bool Lia.
From Stdlib Require Import Floats.PrimFloat.
From stdpp Require Import gmap strings list fin_maps pretty.
Import ListNotations.

#[local] Set Warnings "-register-all".

(** ** JavaScript values *)

(** The values that flow through the handler: what [JSON.parse] produces,
    plus [undefined]. A JavaScript number is a binary64 float; an object is a
    finite map from property names to values. A string is the sequence of its
    code units. *)
Inductive value : Type :=
| VUndefined
| VNull
| VBool (b : bool)
| VNum (f : float)
| VStr (s : string)
| VArr (l : list value)
| VObj (m : gmap string value).

(** [ToBoolean]: the test made by [if (x)], [!x], [x || y] and [x && y]. *)
Definition truthy (v : value) : bool :=
  match v with
  | VUndefined | VNull => false
  | VBool b => b
  | VNum f => negb (is_zero f || is_nan f)
  | VStr s => match s with EmptyString => false | String _ _ => true end
  | VArr _ | VObj _ => true
  end.

(** [a || b] and [a && b] on values. *)
Definition js_or (a b : value) : value := if truthy a then a else b.
Definition js_and (a b : value) : value := if truthy a then b else a.

(** [v === null || v === undefined], the test made by [?.]. *)
Definition nullish (v : value) : bool :=
  match v with
  | VUndefined | VNull => true
  | _ => false
  end.

(** ** Exceptions *)

(** The response object [axios.post] resolves to (and that an axios error
    carries as [error.response]); only [status] and [data] are read. *)
Record axios_response : Type := { status : value; data : value }.

(** A thrown [Error]: its [message] and, for an axios error that got an
    answer from the server, its [response]. *)
Record js_error : Type :=
  { name : string; message : string; response : option axios_response }.

Definition TypeError (msg : string) : js_error :=
  {| name := "TypeError"; message := msg; response := None |}.

(** A computation either returns or throws. *)
Inductive outcome (A : Type) : Type :=
| Returned (a : A)
| Thrown (e : js_error).
Arguments Returned {A} a.
Arguments Thrown {A} e.

#[global] Instance outcome_ret : MRet outcome := fun A a => Returned a.
#[global] Instance outcome_bind : MBind outcome := fun A B k c =>
  match c with
  | Returned a => k a
  | Thrown e => Thrown e
  end.

(** ** Reading properties *)

(** [v.k] for the property names the route reads with a dot: [phoneNumber],
    [transactionId], [totalAmountExcludingTax], [calls], [paid], [source],
    [medium], [campaign]. None of them is [length], an index or a name found
    on a prototype, so only an object can hold them: arrays, strings, numbers
    and booleans give [undefined], and [null] and [undefined] throw. *)
Definition get (v : value) (k : string) : outcome value :=
  match v with
  | VUndefined =>
      Thrown (TypeError ("Cannot read properties of undefined (reading '" +:+ k +:+ "')"))
  | VNull =>
      Thrown (TypeError ("Cannot read properties of null (reading '" +:+ k +:+ "')"))
  | VObj m => Returned (default VUndefined (m !! k))
  | VBool _ | VNum _ | VStr _ | VArr _ => Returned VUndefined
  end.

(** [v?.k]. *)
Definition get_opt (v : value) (k : string) : outcome value :=
  if nullish v then Returned VUndefined else get v k.

(** [v.length === 0] for a value that is neither [null] nor [undefined]: an
    array or a string has its own length; an object has whatever it stores
    under ["length"], and [===] holds for the number zero only. *)
Definition length_is_zero (v : value) : bool :=
  match v with
  | VArr l => match l with [] => true | _ :: _ => false end
  | VStr s => match s with EmptyString => true | String _ _ => false end
  | VObj m => match m !! "length" with Some (VNum f) => is_zero f | _ => false end
  | VUndefined | VNull | VBool _ | VNum _ => false
  end.

(** ** Strings *)

(** [s.replace(re, by)] for a global regular expression [re] that is one
    character class: every code unit in the class is replaced, the others are
    kept, from left to right. *)
Fixpoint replace_all (in_class : ascii -> bool) (by_ : string) (s : string) : string :=
  match s with
  | EmptyString => EmptyString
  | String c rest =>
      if in_class c then by_ +:+ replace_all in_class by_ rest
      else String c (replace_all in_class by_ rest)
  end.

(** [\d] is [0-9], code units 48 to 57; [\D] is its complement. *)
Definition is_digit (c : ascii) : bool :=
  let n := nat_of_ascii c in (48 <=? n)%nat && (n <=? 57)%nat.
Definition non_digit (c : ascii) : bool := negb (is_digit c).

(** [const contactNumber = phoneNumber.replace(/\D/g, '')] (line 14). *)
Definition contactNumber (phoneNumber : string) : string :=
  replace_all non_digit "" phoneNumber.

(** The characters of a string, for statements about them. *)
Fixpoint chars (s : string) : list ascii :=
  match s with
  | EmptyString => []
  | String c rest => c :: chars rest
  end.

(** ** determineAttribution (lines 43-60) *)

Record attribution : Type :=
  { source : value; medium : value; campaign : value }.

Definition no_attribution : attribution :=
  {| source := VNull; medium := VNull; campaign := VNull |}.

(** The [for (const call of calls)] loop. *)
Fixpoint first_paid (calls : list value) : outcome attribution :=
  match calls with
  | [] => Returned no_attribution
  | call :: rest =>
      paid ← get_opt call "paid";
      src ← get_opt paid "source";
      if truthy src then
        p1 ← get call "paid"; s ← get p1 "source";
        p2 ← get call "paid"; m ← get p2 "medium";
        p3 ← get call "paid"; c ← get p3 "campaign";
        Returned {| source := s; medium := m; campaign := js_or c VNull |}
      else first_paid rest
  end.

Definition determineAttribution (calls : value) : outcome attribution :=
  match calls with
  | VArr l =>
      match l with
      | [] => Returned no_attribution
      | _ :: _ => first_paid l
      end
  | _ => Returned no_attribution
  end.

(** ** Effects *)

(** What the handler does to the outside world, in order. *)
Inductive event : Type :=
| ConsoleLog (args : list value)
| ConsoleError (args : list value)
| AxiosPost (url : string) (body : value) (config : value).

(** The outside world: how a server answers a request (it may depend on
    everything that happened before) and what the clock shows. [Date.now()]
    is a whole number of milliseconds. *)
Record environment : Type :=
  { axios_post : list event -> string -> value -> value -> outcome axios_response;
    Date_now : list event -> Z }.

(** [process.env]: each variable is a string or is not set. *)
Record config : Type :=
  { GA4_MEASUREMENT_ID : option string;
    GA4_API_SECRET : option string;
    CTM_AUTH_STRING : option string }.

(** The inbound request: what [request.json()] resolves to, or the error it
    rejects with when the body is not JSON. *)
Record request : Type := { json : outcome value }.

(** The response the handler returns: [NextResponse.json(body, {status})] has
    a body, [new NextResponse(null, {status})] has none. *)
Record NextResponse : Type := { code : Z; body : option value }.

Definition NextResponse_json (b : value) (st : Z) : NextResponse :=
  {| code := st; body := Some b |}.
Definition NextResponse_new (b : option value) (st : Z) : NextResponse :=
  {| code := st; body := b |}.

(** A computation with effects: from the events so far to a result, or an
    exception, and the events after it. *)
Record M (A : Type) : Type := Eff { run : list event -> outcome A * list event }.
Arguments Eff {A} run.
Arguments run {A} m h.

#[global] Instance M_ret : MRet M := fun A a => Eff (fun h => (Returned a, h)).
#[global] Instance M_bind : MBind M := fun A B k c =>
  Eff (fun h =>
         match run c h with
         | (Returned a, h') => run (k a) h'
         | (Thrown e, h') => (Thrown e, h')
         end).

Definition lift {A : Type} (o : outcome A) : M A := Eff (fun h => (o, h)).
Definition throw {A : Type} (e : js_error) : M A := lift (Thrown e).

(** [try { body } catch (error) { handler }]. *)
Definition try_catch {A : Type} (body : M A) (handler : js_error -> M A) : M A :=
  Eff (fun h =>
         match run body h with
         | (Returned a, h') => (Returned a, h')
         | (Thrown e, h') => run (handler e) h'
         end).

Definition console_log (args : list value) : M unit :=
  Eff (fun h => (Returned tt, h ++ [ConsoleLog args])).
Definition console_error (args : list value) : M unit :=
  Eff (fun h => (Returned tt, h ++ [ConsoleError args])).

(** A template literal prints a variable that is not set as "undefined". *)
Definition interpolate (x : option string) : string := default "undefined" x.

(** The outbound requests among the events. *)
Definition is_post (e : event) : bool :=
  match e with
  | AxiosPost _ _ _ => true
  | ConsoleLog _ | ConsoleError _ => false
  end.
Definition posts (h : list event) : list event := List.filter is_post h.

(** ** Total readings *)

(** What [v?.k] evaluates to: the stored value for an object that has [k],
    [undefined] for everything else. *)
Definition field (v : value) (k : string) : value :=
  match v with
  | VObj m => default VUndefined (m !! k)
  | _ => VUndefined
  end.

(** [call?.paid?.source], the test of line 49. *)
Definition paid_source (call : value) : value := field (field call "paid") "source".
Definition qualifies (call : value) : bool := truthy (paid_source call).

(** What line 50-54 returns for a call that passed the test. *)
Definition attribution_of (call : value) : attribution :=
  let paid := field call "paid" in
  {| source := field paid "source";
     medium := field paid "medium";
     campaign := js_or (field paid "campaign") VNull |}.

(** The attribution as the specification words it: the three fields of the
    record, campaign turned into [null] only when the record does not set
    it. *)
Definition stated_attribution_of (call : value) : attribution :=
  let paid := field call "paid" in
  {| source := field paid "source";
     medium := field paid "medium";
     campaign := match paid with
                 | VObj m => default VNull (m !! "campaign")
                 | _ => VNull
                 end |}.

(** The default as the specification words it: "unknown" for [null] and for
    an absent value, the value itself otherwise. *)
Definition stated_default (v : value) : value :=
  match v with
  | VNull | VUndefined => VStr "unknown"
  | _ => v
  end.

(** ** The route *)

Definition dquote : string := String (ascii_of_nat 34) EmptyString.

(** [url] and [data] of [checkPhoneNumberInCTM] (lines 15-20). *)
Definition url : string :=
  "https://api.calltrackingmetrics.com/api/v1/accounts/540774/calls/search.json".
Definition data_of (contactNumber : string) : value :=
  VObj {[ "filter" := VStr ("contact_number:" +:+ dquote +:+ contactNumber +:+ dquote);
          "sort_by" := VStr "call_started_at";
          "sort_order" := VStr "asc" ]}.

(** [payload] of [sendToGA4] (lines 68-83); [now] is what [Date.now()]
    returned, printed in decimal by the template literal. *)
Definition payload (now : Z) (transactionId revenue source medium campaign : value) : value :=
  VObj {[ "client_id" := VStr ("12345678." +:+ pretty now);
          "events" :=
            VArr [ VObj {[ "name" := VStr "phone_purchase";
                           "params" :=
                             VObj {[ "transaction_id" := transactionId;
                                     "value" := revenue;
                                     "currency" := VStr "USD";
                                     "source" := js_or source (VStr "unknown");
                                     "medium" := js_or medium (VStr "unknown");
                                     "campaign" := js_or campaign (VStr "unknown") ]} ]} ] ]}.

Section Route.

Context (cfg : config) (env : environment).

Definition axios_post_ (url : string) (body config : value) : M axios_response :=
  Eff (fun h => (axios_post env h url body config, h ++ [AxiosPost url body config])).

Definition Date_now_ : M Z := Eff (fun h => (Returned (Date_now env h), h)).

Definition ctm_config : value :=
  VObj {[ "headers" :=
            VObj {[ "Authorization" := VStr ("Basic " +:+ interpolate (CTM_AUTH_STRING cfg)) ]} ]}.

(** Lines 13-37. [phoneNumber.replace] is a function on a string only;
    calling it on anything else throws, before the [try]. *)
Definition checkPhoneNumberInCTM (phoneNumber : value) : M value :=
  match phoneNumber with
  | VStr s =>
      let contactNumber := contactNumber s in
      try_catch
        (resp ← axios_post_ url (data_of contactNumber) ctm_config;
         calls ← lift (if truthy (data resp) then get (data resp) "calls"
                       else Returned (data resp));
         if truthy calls then lift (get (data resp) "calls")
         else mret VNull)
        (fun error =>
           console_error
             [VStr "Error searching phone number in CTM:";
              js_or (match response error with
                     | Some r => data r
                     | None => VUndefined
                     end)
                    (VStr (message error))];;
           mret VNull)
  | VUndefined | VNull => lift (get phoneNumber "replace") ≫= fun _ => mret VNull
  | VBool _ | VNum _ | VArr _ | VObj _ =>
      throw (TypeError "phoneNumber.replace is not a function")
  end.

Definition ga4Endpoint : string :=
  "https://www.google-analytics.com/mp/collect?measurement_id="
  +:+ interpolate (GA4_MEASUREMENT_ID cfg)
  +:+ "&api_secret=" +:+ interpolate (GA4_API_SECRET cfg).

Definition ga4_config : value :=
  VObj {[ "headers" := VObj {[ "Content-Type" := VStr "application/json" ]} ]}.

(** Lines 65-94. *)
Definition sendToGA4 (transactionId revenue source medium campaign : value)
  : M axios_response :=
  now ← Date_now_;
  let payload := payload now transactionId revenue source medium campaign in
  try_catch
    (resp ← axios_post_ ga4Endpoint payload ga4_config;
     mret resp)
    (fun error =>
       console_error [VStr "Error sending data to GA4:"; VStr (message error)];;
       throw error).

(** Lines 99-138. *)
Definition POST (request : request) : M NextResponse :=
  try_catch
    (webhookData ← lift (json request);
     console_log [VStr "Received webhook data:"; webhookData];;
     guard ← lift (get webhookData "phoneNumber");
     if negb (truthy guard) then
       console_log [VStr "No phone number found. Skipping."];;
       mret (NextResponse_json (VObj {[ "message" := VStr "No phone number found" ]}) 404)
     else
       phoneNumber ← lift (get webhookData "phoneNumber");
       transactionId ← lift (get webhookData "transactionId");
       revenue ← lift (get webhookData "totalAmountExcludingTax");
       ctmData ← checkPhoneNumberInCTM phoneNumber;
       console_log [VStr "CTM Data:"; ctmData];;
       if negb (truthy ctmData) || length_is_zero ctmData then
         console_log [VStr "No matching phone number in CTM. Skipping."];;
         mret (NextResponse_new None 204)
       else
         a ← lift (determineAttribution ctmData);
         ga4Response ← sendToGA4 transactionId revenue (source a) (medium a) (campaign a);
         console_log [VStr "GA4 Response status:"; status ga4Response];;
         mret (NextResponse_json
                 (VObj {[ "message" := VStr "Data successfully sent to GA4";
                          "ga4Status" := status ga4Response ]})
                 200))
    (fun error =>
       console_error [VStr "Error processing webhook:"; VStr (message error)];;
       mret (NextResponse_json
               (VObj {[ "message" := VStr "Internal Server Error";
                        "error" := VStr (message error) ]})
               500)).

(** The search request for a phone number. *)
Definition ctm_request (s : string) : event :=
  AxiosPost url (data_of (contactNumber s)) ctm_config.

(** The call of line 127 for a payload and an attribution. *)
Definition forward (webhookData : value) (a : attribution) : M axios_response :=
  sendToGA4
    (field webhookData "transactionId") (field webhookData "totalAmountExcludingTax")
    (source a) (medium a) (campaign a).

Definition ga4_request (now : Z) (transactionId revenue source medium campaign : value)
  : event :=
  AxiosPost ga4Endpoint
    (payload now transactionId revenue source medium campaign) ga4_config.

End Route.

(** ** The statements' vocabulary *)

(** The requests sent to one URL. *)
Definition sent_to (u : string) (h : list event) : list event :=
  List.filter (fun e => match e with
                        | AxiosPost u' _ _ => String.eqb u' u
                        | ConsoleLog _ | ConsoleError _ => false
                        end) h.

(** The events once the payload has been logged (line 102). *)
Definition received (h : list event) (webhookData : value) : list event :=
  h ++ [ConsoleLog [VStr "Received webhook data:"; webhookData]].

(** What lines 29-32 return when the server answers [r]. *)
Definition calls_of (r : axios_response) : value :=
  if truthy (js_and (data r) (field (data r) "calls")) then field (data r) "calls"
  else VNull.

(** The three answers of the handler that do not depend on GA4. *)
Definition not_found : NextResponse :=
  NextResponse_json (VObj {[ "message" := VStr "No phone number found" ]}) 404.
Definition no_content : NextResponse := NextResponse_new None 204.
Definition internal_error (e : js_error) : NextResponse :=
  NextResponse_json
    (VObj {[ "message" := VStr "Internal Server Error"; "error" := VStr (message e) ]})
    500.
Definition sent (g : axios_response) : NextResponse :=
  NextResponse_json
    (VObj {[ "message" := VStr "Data successfully sent to GA4";
             "ga4Status" := status g ]})
    200.

(** The events once the answer of CTM has been logged (line 117). *)
Definition looked_up (h1 : list event) (ctmData : value) : list event :=
  h1 ++ [ConsoleLog [VStr "CTM Data:"; ctmData]].

(** The lookup found nothing: the request failed, the answer has no calls
    list, or the list is empty. *)
Definition no_match (o : outcome axios_response) : Prop :=
  match o with
  | Thrown _ => True
  | Returned r =>
      truthy (data r) = false
      \/ truthy (field (data r) "calls") = false
      \/ field (data r) "calls" = VArr []
  end.

(** ** Concrete values *)

(** Call records as the data model has them: an optional [paid] object whose
    [source], [medium] and [campaign] are strings when they are set. The
    first one sets no campaign (it is the qualifying record of the
    specification's example), the second one sets it to the empty string,
    the third one has an empty medium. *)
Definition call1 : value :=
  VObj {[ "paid" := VObj {[ "source" := VStr "google"; "medium" := VStr "cpc" ]} ]}.

Definition call0 : value :=
  VObj {[ "paid" := VObj {[ "source" := VStr "google";
                            "medium" := VStr "cpc";
                            "campaign" := VStr "" ]} ]}.

Definition call2 : value :=
  VObj {[ "paid" := VObj {[ "source" := VStr "google";
                            "medium" := VStr "";
                            "campaign" := VStr "spring" ]} ]}.

(** A world whose CTM server and GA4 server each give one fixed answer. *)
Definition world (ctm ga4 : outcome axios_response) (clock : list event -> Z)
  : environment :=
  {| axios_post := fun _ u _ _ => if String.eqb u url then ctm else ga4;
     Date_now := clock |}.

Definition cfg0 : config :=
  {| GA4_MEASUREMENT_ID := Some "G-TEST";
     GA4_API_SECRET := Some "secret";
     CTM_AUTH_STRING := Some "a2V5OnNlY3JldA==" |}.

Definition found (calls : list value) : outcome axios_response :=
  Returned {| status := VNum 200; data := VObj {[ "calls" := VArr calls ]} |}.
Definition accepted : axios_response := {| status := VNum 204; data := VStr "" |}.
Definition network_error : js_error :=
  {| name := "AxiosError"; message := "Network Error"; response := None |}.
Definition parse_error : js_error :=
  {| name := "SyntaxError"; message := "Unexpected end of JSON input"; response := None |}.

(** A clock that moves with every event, and one that stays within the same
    millisecond. *)
Definition ticking (h : list event) : Z := (1700000000000 + Z.of_nat (length h))%Z.
Definition frozen (h : list event) : Z := 1700000000000%Z.

Definition webhookData0 : value :=
  VObj {[ "phoneNumber" := VStr "+1 (555) 123-4567";
          "transactionId" := VStr "T-1";
          "totalAmountExcludingTax" := VNum 99.5 ]}.
Definition request0 : request := {| json := Returned webhookData0 |}.

(** The client id of a request, and a parameter of its first event. *)
Definition client_id_of (e : event) : value :=
  match e with
  | AxiosPost _ b _ => field b "client_id"
  | ConsoleLog _ | ConsoleError _ => VUndefined
  end.
Definition param_of (k : string) (e : event) : value :=
  match e with
  | AxiosPost _ b _ =>
      match field b "events" with
      | VArr (ev :: _) => field (field ev "params") k
      | _ => VUndefined
      end
  | ConsoleLog _ | ConsoleError _ => VUndefined
  end.

(** * Properties *)

Lemma run_bind {A B : Type} (c : M A) (k : A -> M B) (h : list event) :
  run (c ≫= k) h =
    match run c h with
    | (Returned a, h') => run (k a) h'
    | (Thrown e, h') => (Thrown e, h')
    end.
Proof. reflexivity. Qed.

Lemma get_opt_field v k : get_opt v k = Returned (field v k).
Proof. destruct v; reflexivity. Qed.

Lemma get_field v k : nullish v = false -> get v k = Returned (field v k).
Proof. destruct v; simpl; intros H; try reflexivity; discriminate H. Qed.

Lemma truthy_not_nullish v : truthy v = true -> nullish v = false.
Proof. destruct v; simpl; intros H; try reflexivity; discriminate H. Qed.

Lemma truthy_field_obj v k : truthy (field v k) = true -> nullish v = false.
Proof. destruct v; simpl; intros H; try reflexivity; discriminate H. Qed.

(** For a string, truthy means non-empty. *)
Lemma truthy_VStr s : truthy (VStr s) = true <-> s <> "".
Proof. destruct s; simpl; split; intros H; congruence. Qed.

(** ** Normalization of the phone number *)

Lemma replace_all_empty_chars in_class s :
  chars (replace_all in_class "" s) = List.filter (fun c => negb (in_class c)) (chars s).
Proof.
  induction s as [|c rest IH]; simpl; [reflexivity|].
  destruct (in_class c); simpl; [exact IH | now rewrite IH].
Qed.

Lemma filter_is_digit_non_digit l :
  List.filter (fun c => negb (non_digit c)) l = List.filter is_digit l.
Proof.
  apply List.filter_ext. intros c. unfold non_digit. apply negb_involutive.
Qed.

(** C7: the contact number sent to CTM consists of the digits of the phone
    number, all of them and in their order, and of nothing else;
    "+1 (555) 123-4567" becomes "15551234567". *)
Theorem contactNumber_digits_only :
  (forall s, chars (contactNumber s) = List.filter is_digit (chars s))
  /\ (forall s, Forall (fun c => non_digit c = false) (chars (contactNumber s)))
  /\ contactNumber "+1 (555) 123-4567" = "15551234567".
Proof.
  assert (E : forall s, chars (contactNumber s) = List.filter is_digit (chars s)).
  { intros s. unfold contactNumber.
    now rewrite replace_all_empty_chars, filter_is_digit_non_digit. }
  split; [exact E|]. split; [|reflexivity].
  intros s. rewrite E. apply List.Forall_forall. intros c Hin.
  apply List.filter_In in Hin as [_ Hd].
  unfold non_digit. now rewrite Hd.
Qed.

(** ** The attribution resolver *)

Lemma first_paid_skip call rest :
  qualifies call = false -> first_paid (call :: rest) = first_paid rest.
Proof.
  unfold qualifies, paid_source. intros H. simpl.
  rewrite get_opt_field. simpl. rewrite get_opt_field. simpl. now rewrite H.
Qed.

Lemma first_paid_hit call rest :
  qualifies call = true -> first_paid (call :: rest) = Returned (attribution_of call).
Proof.
  unfold qualifies, paid_source. intros H. simpl.
  rewrite get_opt_field. simpl. rewrite get_opt_field. simpl. rewrite H.
  pose proof (truthy_field_obj _ _ H) as Hp.
  assert (Hc : nullish call = false).
  { destruct call; try reflexivity; simpl in Hp; discriminate Hp. }
  rewrite (get_field call "paid" Hc). simpl.
  rewrite !(get_field (field call "paid") _ Hp). reflexivity.
Qed.

Lemma first_paid_app pre l :
  Forall (fun c => qualifies c = false) pre -> first_paid (pre ++ l) = first_paid l.
Proof.
  induction 1 as [|c pre Hc _ IH]; [reflexivity|].
  change ((c :: pre) ++ l) with (c :: (pre ++ l)).
  now rewrite first_paid_skip.
Qed.

Lemma first_paid_none l :
  Forall (fun c => qualifies c = false) l -> first_paid l = Returned no_attribution.
Proof.
  intros H. rewrite <- (app_nil_r l). now rewrite first_paid_app.
Qed.

Lemma determineAttribution_first_paid l :
  determineAttribution (VArr l) = first_paid l.
Proof. destruct l; reflexivity. Qed.

(** The resolver never throws. *)
Lemma determineAttribution_returns calls : exists a, determineAttribution calls = Returned a.
Proof.
  destruct calls as [| | | | |l|]; try (eexists; reflexivity).
  rewrite determineAttribution_first_paid.
  induction l as [|c l IH]; [eexists; reflexivity|].
  destruct (qualifies c) eqn:Hq.
  - rewrite first_paid_hit by assumption. eauto.
  - rewrite first_paid_skip by assumption. exact IH.
Qed.

(** On a record of the data model, where [paid.source] is a string when it
    is set, the test of line 49 holds exactly when the source is present and
    non-empty. *)
Lemma qualifies_string (call paid : gmap string value) :
  call !! "paid" = Some (VObj paid) ->
  (paid !! "source" = None -> qualifies (VObj call) = false)
  /\ (forall s, paid !! "source" = Some (VStr s) ->
            (qualifies (VObj call) = true <-> s <> "")).
Proof.
  intros Hp. unfold qualifies, paid_source. simpl. rewrite Hp. simpl. split.
  - intros Hs. now rewrite Hs.
  - intros s Hs. rewrite Hs. simpl. apply truthy_VStr.
Qed.

(** C1, as stated, fails: a record that sets campaign to the empty string
    comes back with campaign [null], not with the campaign of the record. *)
Lemma determineAttribution_empty_campaign :
  qualifies call0 = true
  /\ determineAttribution (VArr [call0])
     = Returned {| source := VStr "google"; medium := VStr "cpc"; campaign := VNull |}
  /\ stated_attribution_of call0
     = {| source := VStr "google"; medium := VStr "cpc"; campaign := VStr "" |}
  /\ determineAttribution (VArr [call0]) <> Returned (stated_attribution_of call0).
Proof.
  split; [reflexivity|]. split; [reflexivity|]. split; [reflexivity|].
  vm_compute. intros H. discriminate H.
Qed.

(** C1, amended: for every input the resolver returns, without throwing, the
    source and medium of the first call in the given order whose
    [paid.source] is truthy (for a string: present and non-empty), with the
    campaign of that call, or [null] when that campaign is falsy (not set,
    [null] or the empty string); it returns three nulls when the input is
    not an array, is empty or has no such call. Being a function of its
    argument alone, it has no effect. *)
Theorem determineAttribution_first_qualifying (calls : value) :
  (forall pre call post,
      calls = VArr (pre ++ call :: post) ->
      Forall (fun c => qualifies c = false) pre ->
      qualifies call = true ->
      determineAttribution calls = Returned (attribution_of call))
  /\ (forall l,
         calls = VArr l ->
         Forall (fun c => qualifies c = false) l ->
         determineAttribution calls = Returned no_attribution)
  /\ ((forall l, calls <> VArr l) ->
      determineAttribution calls = Returned no_attribution).
Proof.
  split; [|split].
  - intros pre call post -> Hpre Hcall.
    rewrite determineAttribution_first_paid, first_paid_app by assumption.
    now apply first_paid_hit.
  - intros l -> Hl. rewrite determineAttribution_first_paid.
    now apply first_paid_none.
  - intros Hna. destruct calls as [| | | | |l|]; try reflexivity.
    exfalso. exact (Hna l eq_refl).
Qed.

Lemma determineAttribution_first_qualifying_witness :
  determineAttribution (VArr [VObj ∅; call1])
  = Returned {| source := VStr "google"; medium := VStr "cpc"; campaign := VNull |}
  /\ determineAttribution (VArr [VObj ∅]) = Returned no_attribution
  /\ determineAttribution VUndefined = Returned no_attribution.
Proof.
  assert (Hpre : Forall (fun c => qualifies c = false) [VObj ∅]).
  { constructor; [reflexivity | constructor]. }
  split; [|split].
  - exact (proj1 (determineAttribution_first_qualifying (VArr [VObj ∅; call1]))
             [VObj ∅] call1 [] eq_refl Hpre eq_refl).
  - exact (proj1 (proj2 (determineAttribution_first_qualifying (VArr [VObj ∅])))
             [VObj ∅] eq_refl Hpre).
  - apply (proj2 (proj2 (determineAttribution_first_qualifying VUndefined))).
    intros l H. discriminate H.
Defined.

(** ** The handler *)

Lemma posts_app h1 h2 : posts (h1 ++ h2) = posts h1 ++ posts h2.
Proof. apply List.filter_app. Qed.

Lemma sent_to_app u h1 h2 : sent_to u (h1 ++ h2) = sent_to u h1 ++ sent_to u h2.
Proof. apply List.filter_app. Qed.

Section RouteProperties.

Context (cfg : config) (env : environment).

Lemma checkPhoneNumberInCTM_run s h :
  run (checkPhoneNumberInCTM cfg env (VStr s)) h =
    match axios_post env h url (data_of (contactNumber s)) (ctm_config cfg) with
    | Returned r => (Returned (calls_of r), h ++ [ctm_request cfg s])
    | Thrown e =>
        (Returned VNull,
         (h ++ [ctm_request cfg s])
           ++ [ConsoleError
                 [VStr "Error searching phone number in CTM:";
                  js_or (match response e with
                         | Some r => data r
                         | None => VUndefined
                         end)
                        (VStr (message e))]])
    end.
Proof.
  unfold checkPhoneNumberInCTM, calls_of, js_and. cbn.
  destruct (axios_post env h url _ _) as [r|e]; cbn; [|reflexivity].
  destruct (truthy (data r)) eqn:Hd; cbn.
  - rewrite (get_field (data r) "calls" (truthy_not_nullish _ Hd)). cbn.
    destruct (truthy (field (data r) "calls")); reflexivity.
  - rewrite Hd. reflexivity.
Qed.

(** Whatever the phone number, the guard of line 105 answers 404 for a
    falsy one and contacts nobody. *)
Lemma POST_falsy_phoneNumber request webhookData v h :
  json request = Returned webhookData ->
  get webhookData "phoneNumber" = Returned v ->
  truthy v = false ->
  run (POST cfg env request) h
  = (Returned not_found,
     received h webhookData ++ [ConsoleLog [VStr "No phone number found. Skipping."]]).
Proof.
  intros Hj Hg Hv. unfold POST. cbn. rewrite Hj. cbn. rewrite Hg. cbn.
  rewrite Hv. reflexivity.
Qed.

Lemma sendToGA4_run tid rev src med camp h :
  run (sendToGA4 cfg env tid rev src med camp) h =
    let p := payload (Date_now env h) tid rev src med camp in
    match axios_post env h (ga4Endpoint cfg) p ga4_config with
    | Returned g => (Returned g, h ++ [ga4_request cfg (Date_now env h) tid rev src med camp])
    | Thrown e =>
        (Thrown e,
         (h ++ [ga4_request cfg (Date_now env h) tid rev src med camp])
           ++ [ConsoleError [VStr "Error sending data to GA4:"; VStr (message e)]])
    end.
Proof.
  unfold sendToGA4. cbn.
  destruct (axios_post env h (ga4Endpoint cfg) _ ga4_config); reflexivity.
Qed.

(** The handler past the guard of line 105. *)
Lemma POST_truthy_phoneNumber request webhookData v h :
  json request = Returned webhookData ->
  get webhookData "phoneNumber" = Returned v ->
  truthy v = true ->
  run (POST cfg env request) h =
    match run (checkPhoneNumberInCTM cfg env v) (received h webhookData) with
    | (Returned ctmData, h1) =>
        if negb (truthy ctmData) || length_is_zero ctmData then
          (Returned no_content,
           looked_up h1 ctmData
             ++ [ConsoleLog [VStr "No matching phone number in CTM. Skipping."]])
        else
          match determineAttribution ctmData with
          | Returned a =>
              match run (forward cfg env webhookData a) (looked_up h1 ctmData) with
              | (Returned g, h3) =>
                  (Returned (sent g),
                   h3 ++ [ConsoleLog [VStr "GA4 Response status:"; status g]])
              | (Thrown e, h3) =>
                  (Returned (internal_error e),
                   h3 ++ [ConsoleError [VStr "Error processing webhook:";
                                        VStr (message e)]])
              end
          | Thrown e =>
              (Returned (internal_error e),
               looked_up h1 ctmData
                 ++ [ConsoleError [VStr "Error processing webhook:"; VStr (message e)]])
          end
    | (Thrown e, h1) =>
        (Returned (internal_error e),
         h1 ++ [ConsoleError [VStr "Error processing webhook:"; VStr (message e)]])
    end.
Proof.
  intros Hj Hg Hv.
  assert (Hw : nullish webhookData = false).
  { destruct webhookData; try reflexivity; discriminate Hg. }
  unfold POST, forward, received, looked_up.
  cbn -[checkPhoneNumberInCTM sendToGA4 determineAttribution truthy].
  rewrite Hj. cbn -[checkPhoneNumberInCTM sendToGA4 determineAttribution truthy].
  rewrite Hg. cbn -[checkPhoneNumberInCTM sendToGA4 determineAttribution truthy].
  rewrite Hv. cbn -[checkPhoneNumberInCTM sendToGA4 determineAttribution truthy].
  rewrite !(get_field webhookData _ Hw).
  cbn -[checkPhoneNumberInCTM sendToGA4 determineAttribution truthy].
  rewrite run_bind.
  destruct (run (checkPhoneNumberInCTM cfg env v) _)
    as [[ctmData|e] h1]; [|reflexivity].
  cbn -[checkPhoneNumberInCTM sendToGA4 determineAttribution truthy].
  destruct (negb (truthy ctmData) || length_is_zero ctmData); [reflexivity|].
  cbn -[checkPhoneNumberInCTM sendToGA4 determineAttribution truthy].
  destruct (determineAttribution ctmData) as [a|e]; [|reflexivity].
  rewrite run_bind.
  destruct (run (sendToGA4 cfg env _ _ _ _ _) _) as [[g|e] h3]; reflexivity.
Qed.

(** A phone number that is truthy but not a string has no [replace]: the
    lookup throws before it sends anything, and the answer is 500. *)
Lemma POST_not_a_string request webhookData v h :
  json request = Returned webhookData ->
  get webhookData "phoneNumber" = Returned v ->
  truthy v = true ->
  (forall s, v <> VStr s) ->
  exists h',
    run (POST cfg env request) h
    = (Returned (internal_error (TypeError "phoneNumber.replace is not a function")), h')
    /\ posts h' = posts h.
Proof.
  intros Hj Hg Hv Hns.
  rewrite (POST_truthy_phoneNumber request webhookData v h Hj Hg Hv).
  destruct v as [| | | |s| |]; try discriminate Hv;
    try (eexists; split; [reflexivity|];
         unfold received; rewrite !posts_app; simpl; now rewrite !app_nil_r).
  exfalso. exact (Hns s eq_refl).
Qed.

(** A body that is the JSON [null] has no properties to read: the guard of
    line 105 throws, and the answer is 500, not 404. *)
Lemma POST_null_body request h :
  json request = Returned VNull ->
  exists e h',
    run (POST cfg env request) h = (Returned (internal_error e), h')
    /\ posts h' = posts h.
Proof.
  intros Hj. do 2 eexists. split.
  - unfold POST. cbn. rewrite Hj. reflexivity.
  - rewrite !posts_app. simpl. now rewrite !app_nil_r.
Qed.

Lemma posts_received h w : posts (received h w) = posts h.
Proof. unfold received. rewrite posts_app. apply app_nil_r. Qed.

Lemma sent_to_received u h w : sent_to u (received h w) = sent_to u h.
Proof. unfold received. rewrite sent_to_app. apply app_nil_r. Qed.

Lemma sent_to_ctm_request s : sent_to (ga4Endpoint cfg) [ctm_request cfg s] = [].
Proof. reflexivity. Qed.

(** C4: a payload whose [phoneNumber] is missing is answered 404 with the
    message "No phone number found", and nothing is sent to CTM or GA4. *)
Theorem missing_phoneNumber_404 request webhookData h :
  json request = Returned webhookData ->
  get webhookData "phoneNumber" = Returned VUndefined ->
  exists h',
    run (POST cfg env request) h
    = (Returned {| code := 404;
                   body := Some (VObj {[ "message" := VStr "No phone number found" ]}) |},
       h')
    /\ posts h' = posts h.
Proof.
  intros Hj Hg. eexists. split.
  - exact (POST_falsy_phoneNumber request webhookData VUndefined h Hj Hg eq_refl).
  - now rewrite posts_app, posts_received, app_nil_r.
Qed.

(** C9: a payload whose [phoneNumber] is present but falsy is answered as
    if it were missing: 404, the same message, nothing sent. *)
Theorem falsy_phoneNumber_404 request (m : gmap string value) v h :
  json request = Returned (VObj m) ->
  m !! "phoneNumber" = Some v ->
  truthy v = false ->
  exists h',
    run (POST cfg env request) h
    = (Returned {| code := 404;
                   body := Some (VObj {[ "message" := VStr "No phone number found" ]}) |},
       h')
    /\ posts h' = posts h.
Proof.
  intros Hj Hm Hv. eexists. split.
  - apply (POST_falsy_phoneNumber request (VObj m) v h Hj); [|exact Hv].
    simpl. now rewrite Hm.
  - now rewrite posts_app, posts_received, app_nil_r.
Qed.

(** C10: when the body is not JSON, [request.json()] throws inside the
    [try], before the guard: the answer is 500 with the message of the
    parse error, not 404, and nothing is sent. *)
Theorem invalid_json_500 request e h :
  json request = Thrown e ->
  exists h',
    run (POST cfg env request) h
    = (Returned {| code := 500;
                   body := Some (VObj {[ "message" := VStr "Internal Server Error";
                                         "error" := VStr (message e) ]}) |},
       h')
    /\ posts h' = posts h.
Proof.
  intros Hj. eexists. split.
  - unfold POST. cbn. rewrite Hj. reflexivity.
  - now rewrite posts_app, app_nil_r.
Qed.

(** C2: for a payload with a phone number, when the CTM search fails, or
    answers without a calls list, or with an empty one, the handler
    answers 204 without a body; the search is the only request sent, and
    nothing goes to GA4. *)
Theorem no_match_204 request webhookData s h :
  json request = Returned webhookData ->
  get webhookData "phoneNumber" = Returned (VStr s) ->
  truthy (VStr s) = true ->
  no_match (axios_post env (received h webhookData) url
              (data_of (contactNumber s)) (ctm_config cfg)) ->
  exists h',
    run (POST cfg env request) h = (Returned {| code := 204; body := None |}, h')
    /\ posts h' = posts h ++ [ctm_request cfg s]
    /\ sent_to (ga4Endpoint cfg) h' = sent_to (ga4Endpoint cfg) h.
Proof.
  intros Hj Hg Hs Hno.
  rewrite (POST_truthy_phoneNumber request webhookData (VStr s) h Hj Hg Hs).
  rewrite checkPhoneNumberInCTM_run.
  destruct (axios_post env (received h webhookData) url _ _) as [r|e].
  - assert (Hc : negb (truthy (calls_of r)) || length_is_zero (calls_of r) = true).
    { unfold calls_of, js_and. simpl in Hno.
      destruct (truthy (data r)) eqn:Hd.
      - destruct Hno as [Hno|[Hno|Hno]]; [discriminate Hno| |].
        + now rewrite Hno.
        + now rewrite Hno.
      - now rewrite Hd. }
    rewrite Hc. eexists. split; [reflexivity|]. unfold looked_up.
    rewrite !posts_app, !sent_to_app, posts_received, sent_to_received,
      sent_to_ctm_request.
    simpl. now rewrite !app_nil_r.
  - eexists. split; [reflexivity|]. unfold looked_up.
    rewrite !posts_app, !sent_to_app, posts_received, sent_to_received,
      sent_to_ctm_request.
    simpl. now rewrite !app_nil_r.
Qed.

(** C6: when the CTM lookup returns at least one record and the GA4
    forwarder succeeds, the handler answers 200 with the success message
    and the status of the GA4 response. *)
Theorem success_200 request webhookData s h call calls h1 a g h3 :
  json request = Returned webhookData ->
  get webhookData "phoneNumber" = Returned (VStr s) ->
  truthy (VStr s) = true ->
  run (checkPhoneNumberInCTM cfg env (VStr s)) (received h webhookData)
  = (Returned (VArr (call :: calls)), h1) ->
  determineAttribution (VArr (call :: calls)) = Returned a ->
  run (sendToGA4 cfg env
         (field webhookData "transactionId") (field webhookData "totalAmountExcludingTax")
         (source a) (medium a) (campaign a))
      (looked_up h1 (VArr (call :: calls)))
  = (Returned g, h3) ->
  exists h',
    run (POST cfg env request) h
    = (Returned {| code := 200;
                   body := Some (VObj {[ "message" := VStr "Data successfully sent to GA4";
                                         "ga4Status" := status g ]}) |},
       h').
Proof.
  intros Hj Hg Hs Hctm Ha Hsend.
  rewrite (POST_truthy_phoneNumber request webhookData (VStr s) h Hj Hg Hs).
  rewrite Hctm. cbn [truthy negb orb length_is_zero]. rewrite Ha.
  unfold forward. rewrite Hsend. eexists. reflexivity.
Qed.

(** C3: a failure of the request to GA4 leaves [sendToGA4] as the same
    exception; the handler then answers 500 with "Internal Server Error"
    and the message of that exception, and nothing of what CTM returned. *)
Theorem ga4_failure_500 :
  (forall tid rev src med camp h e,
      axios_post env h (ga4Endpoint cfg)
        (payload (Date_now env h) tid rev src med camp) ga4_config = Thrown e ->
      fst (run (sendToGA4 cfg env tid rev src med camp) h) = Thrown e)
  /\ (forall request webhookData s h ctmData h1 a e h3,
         json request = Returned webhookData ->
         get webhookData "phoneNumber" = Returned (VStr s) ->
         truthy (VStr s) = true ->
         run (checkPhoneNumberInCTM cfg env (VStr s)) (received h webhookData)
         = (Returned ctmData, h1) ->
         truthy ctmData = true ->
         length_is_zero ctmData = false ->
         determineAttribution ctmData = Returned a ->
         run (sendToGA4 cfg env
                (field webhookData "transactionId")
                (field webhookData "totalAmountExcludingTax")
                (source a) (medium a) (campaign a))
             (looked_up h1 ctmData)
         = (Thrown e, h3) ->
         exists h',
           run (POST cfg env request) h
           = (Returned {| code := 500;
                          body := Some (VObj {[ "message" := VStr "Internal Server Error";
                                                "error" := VStr (message e) ]}) |},
              h')).
Proof.
  split.
  - intros tid rev src med camp h e He. rewrite sendToGA4_run. cbn zeta.
    now rewrite He.
  - intros request webhookData s h ctmData h1 a e h3 Hj Hg Hs Hctm Ht Hl Ha Hsend.
    rewrite (POST_truthy_phoneNumber request webhookData (VStr s) h Hj Hg Hs).
    rewrite Hctm, Ht, Hl. cbn [negb orb]. rewrite Ha.
    unfold forward. rewrite Hsend. eexists. reflexivity.
Qed.

(** C5, amended: whatever it is given, [sendToGA4] sends one request, to
    the GA4 endpoint, whose payload has one event, named "phone_purchase",
    with the given transaction id, the revenue as value, currency "USD",
    and source, medium and campaign each as given when truthy and
    "unknown" when falsy (null, absent, but also the empty string); its
    client id is "12345678." followed by the milliseconds the clock shows
    at that call. *)
Theorem sendToGA4_payload tid rev src med camp h :
  exists o h' p ev,
    run (sendToGA4 cfg env tid rev src med camp) h = (o, h')
    /\ posts h' = posts h ++ [AxiosPost (ga4Endpoint cfg) p ga4_config]
    /\ field p "client_id" = VStr ("12345678." +:+ pretty (Date_now env h))
    /\ field p "events" = VArr [ev]
    /\ field ev "name" = VStr "phone_purchase"
    /\ field ev "params"
       = VObj {[ "transaction_id" := tid;
                 "value" := rev;
                 "currency" := VStr "USD";
                 "source" := if truthy src then src else VStr "unknown";
                 "medium" := if truthy med then med else VStr "unknown";
                 "campaign" := if truthy camp then camp else VStr "unknown" ]}.
Proof.
  rewrite sendToGA4_run. cbn zeta.
  destruct (axios_post env h (ga4Endpoint cfg) _ ga4_config) as [g|e].
  - do 4 eexists. split; [reflexivity|]. split.
    + rewrite posts_app. reflexivity.
    + repeat split; reflexivity.
  - do 4 eexists. split; [reflexivity|]. split.
    + rewrite !posts_app. simpl. rewrite app_nil_r. reflexivity.
    + repeat split; reflexivity.
Qed.

Lemma sent_to_ga4_request now tid rev src med camp :
  sent_to (ga4Endpoint cfg) [ga4_request cfg now tid rev src med camp]
  = [ga4_request cfg now tid rev src med camp].
Proof. unfold sent_to, ga4_request. simpl. now rewrite String.eqb_refl. Qed.

(** The only way to a 200: a JSON payload, a phone number that is a
    non-empty string, a lookup that found something, a request to GA4 that
    succeeded. *)
Lemma POST_200_inv request h resp h' :
  run (POST cfg env request) h = (Returned resp, h') ->
  code resp = 200%Z ->
  exists webhookData s ctmData a g,
    let h2 := looked_up (received h webhookData ++ [ctm_request cfg s]) ctmData in
    h' = h2 ++ [ga4_request cfg (Date_now env h2)
                  (field webhookData "transactionId")
                  (field webhookData "totalAmountExcludingTax")
                  (source a) (medium a) (campaign a);
                ConsoleLog [VStr "GA4 Response status:"; status g]].
Proof.
  intros Hrun Hcode.
  destruct (json request) as [w|e] eqn:Hj.
  2:{ unfold POST in Hrun. cbn in Hrun. rewrite Hj in Hrun. cbn in Hrun.
      inversion Hrun; subst. discriminate Hcode. }
  destruct (get w "phoneNumber") as [v|e] eqn:Hg.
  2:{ unfold POST in Hrun. cbn in Hrun. rewrite Hj in Hrun. cbn in Hrun.
      rewrite Hg in Hrun. cbn in Hrun. inversion Hrun; subst. discriminate Hcode. }
  destruct (truthy v) eqn:Hv.
  2:{ rewrite (POST_falsy_phoneNumber request w v h Hj Hg Hv) in Hrun.
      inversion Hrun; subst. discriminate Hcode. }
  rewrite (POST_truthy_phoneNumber request w v h Hj Hg Hv) in Hrun.
  destruct v as [| | | |s| |];
    try (cbn in Hrun; inversion Hrun; subst; discriminate Hcode);
    try discriminate Hv.
  rewrite checkPhoneNumberInCTM_run in Hrun.
  destruct (axios_post env (received h w) url _ _) as [r|e].
  2:{ cbn in Hrun. inversion Hrun; subst. discriminate Hcode. }
  destruct (negb (truthy (calls_of r)) || length_is_zero (calls_of r)).
  { inversion Hrun; subst. discriminate Hcode. }
  destruct (determineAttribution (calls_of r)) as [a|e].
  2:{ inversion Hrun; subst. discriminate Hcode. }
  unfold forward in Hrun. rewrite sendToGA4_run in Hrun. cbn zeta in Hrun.
  destruct (axios_post env _ (ga4Endpoint cfg) _ ga4_config) as [g|e].
  2:{ inversion Hrun; subst. discriminate Hcode. }
  inversion Hrun; subst.
  exists w, s, (calls_of r), a, g. cbn zeta.
  now rewrite <- app_assoc.
Qed.

Lemma client_id_inj (t1 t2 : Z) :
  VStr ("12345678." +:+ pretty t1) = VStr ("12345678." +:+ pretty t2) -> t1 = t2.
Proof.
  intros H. injection H as H.
  apply (inj pretty). exact H.
Qed.

(** C8, amended: when the same request is handled twice and both runs
    answer 200, two requests go to GA4; the client id of each is
    "12345678." followed by the milliseconds the clock showed just before
    it was sent, so the two differ exactly when the two readings of the
    clock differ. *)
Theorem twice_client_ids request h0 r1 h1 r2 h2 :
  run (POST cfg env request) h0 = (Returned r1, h1) ->
  code r1 = 200%Z ->
  run (POST cfg env request) h1 = (Returned r2, h2) ->
  code r2 = 200%Z ->
  exists ha hb p1 p2 l1 l2,
    h1 = ha ++ [AxiosPost (ga4Endpoint cfg) p1 ga4_config; l1]
    /\ h2 = hb ++ [AxiosPost (ga4Endpoint cfg) p2 ga4_config; l2]
    /\ sent_to (ga4Endpoint cfg) h2
       = sent_to (ga4Endpoint cfg) h0
           ++ [AxiosPost (ga4Endpoint cfg) p1 ga4_config;
               AxiosPost (ga4Endpoint cfg) p2 ga4_config]
    /\ field p1 "client_id" = VStr ("12345678." +:+ pretty (Date_now env ha))
    /\ field p2 "client_id" = VStr ("12345678." +:+ pretty (Date_now env hb))
    /\ (field p1 "client_id" <> field p2 "client_id"
        <-> Date_now env ha <> Date_now env hb).
Proof.
  intros Hrun1 Hcode1 Hrun2 Hcode2.
  destruct (POST_200_inv _ _ _ _ Hrun1 Hcode1) as (w1 & s1 & c1 & a1 & g1 & E1).
  destruct (POST_200_inv _ _ _ _ Hrun2 Hcode2) as (w2 & s2 & c2 & a2 & g2 & E2).
  cbn zeta in E1, E2.
  set (ha := looked_up (received h0 w1 ++ [ctm_request cfg s1]) c1) in *.
  set (hb := looked_up (received h1 w2 ++ [ctm_request cfg s2]) c2) in *.
  exists ha, hb. do 4 eexists.
  split; [exact E1|]. split; [exact E2|]. split; [|split; [reflexivity|split; [reflexivity|]]].
  - assert (Hs : forall h w s c,
               sent_to (ga4Endpoint cfg) (looked_up (received h w ++ [ctm_request cfg s]) c)
               = sent_to (ga4Endpoint cfg) h).
    { intros h w s c. unfold looked_up.
      rewrite !sent_to_app, sent_to_received, sent_to_ctm_request.
      simpl. now rewrite !app_nil_r. }
    rewrite E2.
    change (hb ++ [?x; ?y]) with (hb ++ [x] ++ [y]).
    rewrite !sent_to_app, sent_to_ga4_request. subst hb. rewrite Hs, E1.
    change (ha ++ [?x; ?y]) with (ha ++ [x] ++ [y]).
    rewrite !sent_to_app, sent_to_ga4_request. subst ha. rewrite Hs.
    change (sent_to (ga4Endpoint cfg) [ConsoleLog ?x]) with (@nil event).
    now rewrite !app_nil_r, <- app_assoc.
  - change (field (payload ?n _ _ _ _ _) "client_id")
      with (VStr ("12345678." +:+ pretty n)).
    split.
    + intros Hne Heq. apply Hne. now rewrite Heq.
    + intros Hne Heq. apply Hne. now apply client_id_inj.
Qed.

End RouteProperties.

(** ** Concrete runs *)

(** C5, as stated, fails: a medium that is the empty string is neither null
    nor absent, and yet it is sent as "unknown"; so it is when it comes from
    a call record through the handler. *)
Lemma sendToGA4_empty_medium :
  map (param_of "medium")
    (posts (snd (run (sendToGA4 cfg0 (world (found [call2]) (Returned accepted) ticking)
                        (VStr "T-1") (VNum 99.5) (VStr "google") (VStr "") VNull)
                     [])))
  = [VStr "unknown"]
  /\ map (param_of "medium")
       (sent_to (ga4Endpoint cfg0)
          (snd (run (POST cfg0 (world (found [call2]) (Returned accepted) ticking) request0)
                  [])))
     = [VStr "unknown"]
  /\ stated_default (VStr "") = VStr ""
  /\ VStr "unknown" <> stated_default (VStr "").
Proof.
  split; [reflexivity|]. split; [vm_compute; reflexivity|]. split; [reflexivity|].
  intros H. discriminate H.
Qed.

(** C8, as stated, fails: two runs on the same payload that both answer 200
    while the clock shows the same millisecond send the same client id
    twice. *)
Lemma same_millisecond_same_client_id :
  fst (run (POST cfg0 (world (found [call1]) (Returned accepted) frozen) request0) [])
  = Returned {| code := 200;
                body := Some (VObj {[ "message" := VStr "Data successfully sent to GA4";
                                      "ga4Status" := VNum 204 ]}) |}
  /\ fst (run (POST cfg0 (world (found [call1]) (Returned accepted) frozen) request0)
            (snd (run (POST cfg0 (world (found [call1]) (Returned accepted) frozen)
                         request0) [])))
     = Returned {| code := 200;
                   body := Some (VObj {[ "message" := VStr "Data successfully sent to GA4";
                                         "ga4Status" := VNum 204 ]}) |}
  /\ map client_id_of
       (sent_to (ga4Endpoint cfg0)
          (snd (run (POST cfg0 (world (found [call1]) (Returned accepted) frozen) request0)
                  (snd (run (POST cfg0 (world (found [call1]) (Returned accepted) frozen)
                               request0) [])))))
     = [VStr "12345678.1700000000000"; VStr "12345678.1700000000000"].
Proof. repeat split; vm_compute; reflexivity. Qed.

(** ** The theorems at concrete requests *)

Lemma missing_phoneNumber_404_witness :
  exists h',
    run (POST cfg0 (world (found [call1]) (Returned accepted) ticking)
           {| json := Returned (VObj {[ "transactionId" := VStr "T-1" ]}) |}) []
    = (Returned {| code := 404;
                   body := Some (VObj {[ "message" := VStr "No phone number found" ]}) |},
       h')
    /\ posts h' = posts [].
Proof.
  apply (missing_phoneNumber_404 cfg0 _ _ (VObj {[ "transactionId" := VStr "T-1" ]}) []);
    reflexivity.
Defined.

Lemma falsy_phoneNumber_404_witness :
  exists h',
    run (POST cfg0 (world (found [call1]) (Returned accepted) ticking)
           {| json := Returned (VObj {[ "phoneNumber" := VStr "";
                                        "transactionId" := VStr "T-1" ]}) |}) []
    = (Returned {| code := 404;
                   body := Some (VObj {[ "message" := VStr "No phone number found" ]}) |},
       h')
    /\ posts h' = posts [].
Proof.
  apply (falsy_phoneNumber_404 cfg0 _ _
           {[ "phoneNumber" := VStr ""; "transactionId" := VStr "T-1" ]} (VStr "") []);
    reflexivity.
Defined.

Lemma invalid_json_500_witness :
  exists h',
    run (POST cfg0 (world (found [call1]) (Returned accepted) ticking)
           {| json := Thrown parse_error |}) []
    = (Returned {| code := 500;
                   body := Some (VObj {[ "message" := VStr "Internal Server Error";
                                         "error" := VStr "Unexpected end of JSON input" ]}) |},
       h')
    /\ posts h' = posts [].
Proof.
  apply (invalid_json_500 cfg0 _ {| json := Thrown parse_error |} parse_error []).
  reflexivity.
Defined.

(** CTM is unreachable: the error is logged and the answer is 204. *)
Lemma no_match_204_witness :
  exists h',
    run (POST cfg0 (world (Thrown network_error) (Returned accepted) ticking) request0) []
    = (Returned {| code := 204; body := None |}, h')
    /\ posts h' = posts [] ++ [ctm_request cfg0 "+1 (555) 123-4567"]
    /\ sent_to (ga4Endpoint cfg0) h' = sent_to (ga4Endpoint cfg0) [].
Proof.
  apply (no_match_204 cfg0 (world (Thrown network_error) (Returned accepted) ticking)
           request0 webhookData0 "+1 (555) 123-4567" []).
  - reflexivity.
  - reflexivity.
  - reflexivity.
  - simpl. exact I.
Defined.

Lemma success_200_witness :
  exists h',
    run (POST cfg0 (world (found [call1]) (Returned accepted) ticking) request0) []
    = (Returned {| code := 200;
                   body := Some (VObj {[ "message" := VStr "Data successfully sent to GA4";
                                         "ga4Status" := VNum 204 ]}) |},
       h').
Proof.
  eapply (success_200 cfg0 (world (found [call1]) (Returned accepted) ticking)
            request0 webhookData0 "+1 (555) 123-4567" [] call1 [] _ _ accepted _).
  - reflexivity.
  - reflexivity.
  - reflexivity.
  - reflexivity.
  - reflexivity.
  - reflexivity.
Defined.

(** GA4 is unreachable after a lookup that found a call. *)
Lemma ga4_failure_500_witness :
  fst (run (sendToGA4 cfg0 (world (found [call1]) (Thrown network_error) ticking)
              (VStr "T-1") (VNum 99.5) (VStr "google") (VStr "cpc") VNull) [])
  = Thrown network_error
  /\ exists h',
      run (POST cfg0 (world (found [call1]) (Thrown network_error) ticking) request0) []
      = (Returned {| code := 500;
                     body := Some (VObj {[ "message" := VStr "Internal Server Error";
                                           "error" := VStr "Network Error" ]}) |},
         h').
Proof.
  split.
  - apply (proj1 (ga4_failure_500 cfg0
                    (world (found [call1]) (Thrown network_error) ticking))).
    reflexivity.
  - eapply (proj2 (ga4_failure_500 cfg0
                     (world (found [call1]) (Thrown network_error) ticking))
              request0 webhookData0 "+1 (555) 123-4567" [] (VArr [call1]) _ _
              network_error _).
    + reflexivity.
    + reflexivity.
    + reflexivity.
    + reflexivity.
    + reflexivity.
    + reflexivity.
    + reflexivity.
    + reflexivity.
Defined.

(** With a clock that moves, the two client ids differ. *)
Lemma twice_client_ids_witness :
  exists ha hb p1 p2 l1 l2,
    snd (run (POST cfg0 (world (found [call1]) (Returned accepted) ticking) request0) [])
    = ha ++ [AxiosPost (ga4Endpoint cfg0) p1 ga4_config; l1]
    /\ snd (run (POST cfg0 (world (found [call1]) (Returned accepted) ticking) request0)
              (snd (run (POST cfg0 (world (found [call1]) (Returned accepted) ticking)
                           request0) [])))
       = hb ++ [AxiosPost (ga4Endpoint cfg0) p2 ga4_config; l2]
    /\ sent_to (ga4Endpoint cfg0)
         (snd (run (POST cfg0 (world (found [call1]) (Returned accepted) ticking) request0)
                 (snd (run (POST cfg0 (world (found [call1]) (Returned accepted) ticking)
                              request0) []))))
       = sent_to (ga4Endpoint cfg0) []
           ++ [AxiosPost (ga4Endpoint cfg0) p1 ga4_config;
               AxiosPost (ga4Endpoint cfg0) p2 ga4_config]
    /\ field p1 "client_id" = VStr ("12345678." +:+ pretty (ticking ha))
    /\ field p2 "client_id" = VStr ("12345678." +:+ pretty (ticking hb))
    /\ (field p1 "client_id" <> field p2 "client_id" <-> ticking ha <> ticking hb).
Proof.
  eapply (twice_client_ids cfg0 (world (found [call1]) (Returned accepted) ticking)
            request0 [] _ _ _ _).
  - reflexivity.
  - reflexivity.
  - reflexivity.
  - reflexivity.
Defined.

(** * Further properties of the route *)

(** ** The contact number *)

Lemma chars_inj s1 s2 : chars s1 = chars s2 -> s1 = s2.
Proof.
  revert s2. induction s1 as [|c s1 IH]; intros [|c2 s2] H; simpl in H;
    try discriminate H; [reflexivity|].
  injection H as -> H. f_equal. now apply IH.
Qed.

Lemma chars_length s : length (chars s) = String.length s.
Proof. induction s as [|c s IH]; simpl; [reflexivity | now rewrite IH]. Qed.

Lemma chars_contactNumber s :
  chars (contactNumber s) = List.filter is_digit (chars s).
Proof.
  unfold contactNumber.
  now rewrite replace_all_empty_chars, filter_is_digit_non_digit.
Qed.

Lemma filter_idempotent {A : Type} (f : A -> bool) (l : list A) :
  List.filter f (List.filter f l) = List.filter f l.
Proof.
  induction l as [|x l IH]; simpl; [reflexivity|].
  destruct (f x) eqn:Hx; simpl; [rewrite Hx; now f_equal | exact IH].
Qed.

Lemma filter_all {A : Type} (f : A -> bool) (l : list A) :
  List.filter f l = l <-> Forall (fun x => f x = true) l.
Proof.
  induction l as [|x l IH]; simpl.
  - split; [constructor | reflexivity].
  - destruct (f x) eqn:Hx.
    + split.
      * intros H. injection H as H. constructor; [exact Hx | now apply IH].
      * intros H. f_equal. apply IH. now apply List.Forall_inv_tail in H.
    + split.
      * intros H. exfalso.
        pose proof (List.filter_length_le f l) as Hl. rewrite H in Hl.
        simpl in Hl. lia.
      * intros H. apply List.Forall_inv in H. simpl in H. congruence.
Qed.

(** X1: normalizing a phone number twice is normalizing it once; the contact
    number is never longer than the phone number; and it is the phone number
    itself exactly when that one is made of digits only. *)
Theorem contactNumber_idempotent (s : string) :
  contactNumber (contactNumber s) = contactNumber s
  /\ (String.length (contactNumber s) <= String.length s)%nat
  /\ (contactNumber s = s <-> Forall (fun c => is_digit c = true) (chars s)).
Proof.
  split; [|split].
  - apply chars_inj. now rewrite !chars_contactNumber, filter_idempotent.
  - rewrite <- !chars_length, chars_contactNumber. apply List.filter_length_le.
  - rewrite <- filter_all, <- chars_contactNumber. split.
    + now intros ->.
    + apply chars_inj.
Qed.


(** ** The attribution resolver, continued *)

Lemma first_paid_filter l : first_paid l = first_paid (List.filter qualifies l).
Proof.
  induction l as [|c l IH]; [reflexivity|].
  cbn [List.filter]. destruct (qualifies c) eqn:Hc.
  - now rewrite !first_paid_hit.
  - now rewrite first_paid_skip.
Qed.

Lemma first_paid_cut pre call post :
  qualifies call = true ->
  first_paid (pre ++ call :: post) = first_paid (pre ++ [call]).
Proof.
  intros Hc. induction pre as [|c pre IH]; simpl app.
  - now rewrite !first_paid_hit.
  - destruct (qualifies c) eqn:Hq.
    + now rewrite !first_paid_hit.
    + now rewrite !first_paid_skip.
Qed.

(** X3: the calls that do not qualify never matter, and neither does
    anything that follows a call that qualifies: dropping them leaves the
    attribution as it is. *)
Theorem determineAttribution_irrelevant_calls :
  (forall l, determineAttribution (VArr l)
             = determineAttribution (VArr (List.filter qualifies l)))
  /\ (forall pre call post,
         qualifies call = true ->
         determineAttribution (VArr (pre ++ call :: post))
         = determineAttribution (VArr (pre ++ [call]))).
Proof.
  split.
  - intros l. rewrite !determineAttribution_first_paid. apply first_paid_filter.
  - intros pre call post Hc. rewrite !determineAttribution_first_paid.
    now apply first_paid_cut.
Qed.

Lemma determineAttribution_irrelevant_calls_witness :
  determineAttribution (VArr ([VObj ∅] ++ call1 :: [call0; call2]))
  = determineAttribution (VArr ([VObj ∅] ++ [call1])).
Proof.
  apply (proj2 determineAttribution_irrelevant_calls [VObj ∅] call1 [call0; call2]).
  reflexivity.
Defined.

Lemma first_paid_shape l a :
  first_paid l = Returned a ->
  a = no_attribution
  \/ (truthy (source a) = true
      /\ (campaign a = VNull \/ truthy (campaign a) = true)).
Proof.
  induction l as [|c l IH]; intros H.
  - left. simpl in H. now injection H as <-.
  - destruct (qualifies c) eqn:Hc.
    + rewrite first_paid_hit in H by assumption. injection H as <-.
      right. split; [exact Hc|].
      unfold attribution_of, js_or. cbn [campaign].
      destruct (truthy (field (field c "paid") "campaign")) eqn:Ht; auto.
    + rewrite first_paid_skip in H by assumption. now apply IH.
Qed.

(** X4: whatever it is given, the resolver returns either the three nulls
    or an attribution whose source is truthy; and the campaign it returns is
    [null] or truthy, never [undefined] nor the empty string. *)
Theorem determineAttribution_shape (calls : value) :
  exists a,
    determineAttribution calls = Returned a
    /\ (a = no_attribution
        \/ (truthy (source a) = true
            /\ (campaign a = VNull \/ truthy (campaign a) = true))).
Proof.
  destruct (determineAttribution_returns calls) as [a Ha]. exists a.
  split; [exact Ha|].
  destruct calls as [| | | | |l|]; try (left; simpl in Ha; now injection Ha as <-).
  rewrite determineAttribution_first_paid in Ha. now apply (first_paid_shape l).
Qed.

(** ** The handler, continued *)

Section MoreRouteProperties.

Context (cfg : config) (env : environment).

Lemma posts_looked_up h c : posts (looked_up h c) = posts h.
Proof. unfold looked_up. rewrite posts_app. apply app_nil_r. Qed.


Lemma POST_json_throws request e h :
  json request = Thrown e ->
  run (POST cfg env request) h
  = (Returned (internal_error e),
     h ++ [ConsoleError [VStr "Error processing webhook:"; VStr (message e)]]).
Proof. intros Hj. unfold POST. cbn. rewrite Hj. reflexivity. Qed.

Lemma POST_get_throws request w e h :
  json request = Returned w ->
  get w "phoneNumber" = Thrown e ->
  run (POST cfg env request) h
  = (Returned (internal_error e),
     received h w ++ [ConsoleError [VStr "Error processing webhook:"; VStr (message e)]]).
Proof.
  intros Hj Hg. unfold POST. cbn. rewrite Hj. cbn. rewrite Hg. reflexivity.
Qed.

(** The handler on a phone number that is a non-empty string, down to the
    answers of the two servers. *)
Lemma POST_string_run request w s h :
  json request = Returned w ->
  get w "phoneNumber" = Returned (VStr s) ->
  truthy (VStr s) = true ->
  run (POST cfg env request) h =
    let h1 := received h w ++ [ctm_request cfg s] in
    match axios_post env (received h w) url (data_of (contactNumber s)) (ctm_config cfg) with
    | Thrown e =>
        (Returned no_content,
         looked_up
           (h1 ++ [ConsoleError
                     [VStr "Error searching phone number in CTM:";
                      js_or (match response e with
                             | Some r => data r
                             | None => VUndefined
                             end)
                            (VStr (message e))]])
           VNull
           ++ [ConsoleLog [VStr "No matching phone number in CTM. Skipping."]])
    | Returned r =>
        let h2 := looked_up h1 (calls_of r) in
        if negb (truthy (calls_of r)) || length_is_zero (calls_of r) then
          (Returned no_content,
           h2 ++ [ConsoleLog [VStr "No matching phone number in CTM. Skipping."]])
        else
          match determineAttribution (calls_of r) with
          | Thrown e =>
              (Returned (internal_error e),
               h2 ++ [ConsoleError [VStr "Error processing webhook:"; VStr (message e)]])
          | Returned a =>
              let rq := ga4_request cfg (Date_now env h2)
                          (field w "transactionId") (field w "totalAmountExcludingTax")
                          (source a) (medium a) (campaign a) in
              match axios_post env h2 (ga4Endpoint cfg)
                      (payload (Date_now env h2)
                         (field w "transactionId") (field w "totalAmountExcludingTax")
                         (source a) (medium a) (campaign a))
                      ga4_config with
              | Returned g =>
                  (Returned (sent g),
                   h2 ++ [rq; ConsoleLog [VStr "GA4 Response status:"; status g]])
              | Thrown e =>
                  (Returned (internal_error e),
                   h2 ++ [rq;
                          ConsoleError [VStr "Error sending data to GA4:";
                                        VStr (message e)];
                          ConsoleError [VStr "Error processing webhook:";
                                        VStr (message e)]])
              end
          end
    end.
Proof.
  intros Hj Hg Hs. cbn zeta.
  rewrite (POST_truthy_phoneNumber cfg env request w (VStr s) h Hj Hg Hs).
  rewrite checkPhoneNumberInCTM_run.
  destruct (axios_post env (received h w) url _ _) as [r|e]; [|reflexivity].
  destruct (negb (truthy (calls_of r)) || length_is_zero (calls_of r)); [reflexivity|].
  destruct (determineAttribution (calls_of r)) as [a|e]; [|reflexivity].
  unfold forward. rewrite sendToGA4_run. cbn zeta.
  destruct (axios_post env _ (ga4Endpoint cfg) _ ga4_config) as [g|e].
  - now rewrite <- app_assoc.
  - now rewrite <- !app_assoc.
Qed.

Ltac posts_norm :=
  rewrite ?posts_app, ?posts_looked_up, ?posts_app, ?posts_received;
  cbn [posts List.filter is_post ctm_request ga4_request app];
  rewrite ?app_nil_r.

(** X5: the handler always answers, with one of its four responses, and the
    response tells what was sent: nothing for 404; the CTM search alone for
    204; the search and then one request to GA4 for 200; and for 500 either
    nothing or both of them, the second one being the one that failed. *)
Theorem POST_responses request h :
  exists r h',
    run (POST cfg env request) h = (Returned r, h')
    /\ ((r = not_found /\ posts h' = posts h)
        \/ (r = no_content /\ exists s, posts h' = posts h ++ [ctm_request cfg s])
        \/ (exists g s now tid rev src med camp,
               r = sent g
               /\ posts h' = posts h ++ [ctm_request cfg s;
                                         ga4_request cfg now tid rev src med camp])
        \/ (exists e,
               r = internal_error e
               /\ (posts h' = posts h
                   \/ exists s now tid rev src med camp,
                        posts h' = posts h ++ [ctm_request cfg s;
                                               ga4_request cfg now tid rev src med camp]))).
Proof.
  destruct (json request) as [w|e] eqn:Hj.
  2:{ do 2 eexists. split; [exact (POST_json_throws request e h Hj)|].
      right; right; right. exists e. split; [reflexivity|]. left. now posts_norm. }
  destruct (get w "phoneNumber") as [v|e] eqn:Hg.
  2:{ do 2 eexists. split; [exact (POST_get_throws request w e h Hj Hg)|].
      right; right; right. exists e. split; [reflexivity|]. left. now posts_norm. }
  destruct (truthy v) eqn:Hv.
  2:{ do 2 eexists. split; [exact (POST_falsy_phoneNumber cfg env request w v h Hj Hg Hv)|].
      left. split; [reflexivity|]. now posts_norm. }
  assert (Hstr : (exists s, v = VStr s) \/ (forall s, v <> VStr s)).
  { destruct v; try (right; intros s0 H0; discriminate H0). left. eauto. }
  destruct Hstr as [[s ->]|Hns].
  2:{ destruct (POST_not_a_string cfg env request w v h Hj Hg Hv Hns) as (h' & Hr & Hp).
      do 2 eexists. split; [exact Hr|].
      right; right; right. eexists. split; [reflexivity|]. now left. }
  rewrite (POST_string_run request w s h Hj Hg Hv). cbn zeta.
  destruct (axios_post env (received h w) url _ _) as [r|e].
  2:{ do 2 eexists. split; [reflexivity|]. right; left. split; [reflexivity|].
      exists s. now posts_norm. }
  destruct (negb (truthy (calls_of r)) || length_is_zero (calls_of r)).
  { do 2 eexists. split; [reflexivity|]. right; left. split; [reflexivity|].
    exists s. now posts_norm. }
  destruct (determineAttribution_returns (calls_of r)) as [a Ha]. rewrite Ha.
  destruct (axios_post env _ (ga4Endpoint cfg) _ ga4_config) as [g|e].
  - do 2 eexists. split; [reflexivity|]. right; right; left.
    do 8 eexists. split; [reflexivity|]. posts_norm. now rewrite <- app_assoc.
  - do 2 eexists. split; [reflexivity|]. right; right; right.
    eexists. split; [reflexivity|]. right. do 7 eexists.
    posts_norm. now rewrite <- app_assoc.
Qed.

(** X6: a body that is JSON but not an object never reaches CTM: [null]
    is answered 500, because reading its [phoneNumber] throws; a number, a
    string, a boolean or an array is answered 404, because it has none. *)
Theorem POST_non_object_body request w h :
  json request = Returned w ->
  (forall m, w <> VObj m) ->
  exists r h',
    run (POST cfg env request) h = (Returned r, h')
    /\ posts h' = posts h
    /\ (nullish w = true -> exists e, r = internal_error e)
    /\ (nullish w = false -> r = not_found).
Proof.
  intros Hj Hno.
  destruct w as [| | | | | |m]; try (exfalso; exact (Hno m eq_refl)).
  1,2: do 2 eexists; split;
    [exact (POST_get_throws request _ _ h Hj eq_refl)|];
    split; [now posts_norm|]; split; [eauto | intros H; discriminate H].
  all: do 2 eexists; split;
    [exact (POST_falsy_phoneNumber cfg env request _ VUndefined h Hj eq_refl eq_refl)|];
    split; [now posts_norm|]; split; [intros H; discriminate H | reflexivity].
Qed.

(** X7: for a phone number that is a string, whatever the server does, the
    lookup never throws: it sends one request, the search, and returns
    either [null] or a truthy value (an empty list included). *)
Theorem checkPhoneNumberInCTM_string s h :
  exists ctmData h',
    run (checkPhoneNumberInCTM cfg env (VStr s)) h = (Returned ctmData, h')
    /\ (ctmData = VNull \/ truthy ctmData = true)
    /\ posts h' = posts h ++ [ctm_request cfg s].
Proof.
  rewrite checkPhoneNumberInCTM_run.
  destruct (axios_post env h url _ _) as [r|e].
  - do 2 eexists. split; [reflexivity|]. split; [|now posts_norm].
    unfold calls_of, js_and.
    destruct (truthy (data r)) eqn:Hd.
    + destruct (truthy (field (data r) "calls")) eqn:Hc; auto.
    + rewrite Hd. now left.
  - do 2 eexists. split; [reflexivity|]. split; [now left | now posts_norm].
Qed.

(** X8: the lookup sees the digits only: two phone numbers with the same
    digits in the same order are looked up in the same way, with the same
    request, the same result and the same log. *)
Theorem checkPhoneNumberInCTM_format s1 s2 h :
  List.filter is_digit (chars s1) = List.filter is_digit (chars s2) ->
  run (checkPhoneNumberInCTM cfg env (VStr s1)) h
  = run (checkPhoneNumberInCTM cfg env (VStr s2)) h.
Proof.
  intros H.
  assert (E : contactNumber s1 = contactNumber s2).
  { apply chars_inj. now rewrite !chars_contactNumber. }
  rewrite !checkPhoneNumberInCTM_run. unfold ctm_request. now rewrite E.
Qed.


Lemma param_of_ga4_request now tid rev src med camp :
  let e := ga4_request cfg now tid rev src med camp in
  param_of "transaction_id" e = tid
  /\ param_of "value" e = rev
  /\ param_of "currency" e = VStr "USD"
  /\ param_of "source" e = js_or src (VStr "unknown")
  /\ param_of "medium" e = js_or med (VStr "unknown")
  /\ param_of "campaign" e = js_or camp (VStr "unknown").
Proof. repeat split; reflexivity. Qed.





(** X11: GA4 is never sent an empty attribution: whatever [sendToGA4] is
    given, the source, the medium and the campaign of the event it sends are
    truthy, and its currency is "USD". *)
Theorem sendToGA4_never_empty tid rev src med camp h :
  exists o h' e,
    run (sendToGA4 cfg env tid rev src med camp) h = (o, h')
    /\ posts h' = posts h ++ [e]
    /\ truthy (param_of "source" e) = true
    /\ truthy (param_of "medium" e) = true
    /\ truthy (param_of "campaign" e) = true
    /\ param_of "currency" e = VStr "USD".
Proof.
  assert (T : forall v, truthy (js_or v (VStr "unknown")) = true).
  { intros v. unfold js_or. now destruct (truthy v) eqn:Hv. }
  rewrite sendToGA4_run. cbn zeta.
  destruct (param_of_ga4_request (Date_now env h) tid rev src med camp)
    as (_ & _ & Pcur & Psrc & Pmed & Pcamp). cbn zeta in *.
  destruct (axios_post env h (ga4Endpoint cfg) _ ga4_config) as [g|e];
    do 3 eexists; (split; [reflexivity|]); (split; [now posts_norm|]);
    rewrite Psrc, Pmed, Pcamp, !T; auto.
Qed.


End MoreRouteProperties.

(** ** The further properties at concrete inputs *)

Lemma contactNumber_idempotent_witness : contactNumber "5551234" = "5551234".
Proof.
  apply (proj2 (proj2 (proj2 (contactNumber_idempotent "5551234")))).
  repeat constructor.
Defined.


Lemma POST_non_object_body_witness :
  exists r h',
    run (POST cfg0 (world (found [call1]) (Returned accepted) ticking)
           {| json := Returned VNull |}) []
    = (Returned r, h')
    /\ posts h' = posts []
    /\ (nullish VNull = true -> exists e, r = internal_error e)
    /\ (nullish VNull = false -> r = not_found).
Proof.
  apply (POST_non_object_body cfg0 _ {| json := Returned VNull |} VNull []).
  - reflexivity.
  - intros m H. discriminate H.
Defined.

Lemma checkPhoneNumberInCTM_format_witness :
  run (checkPhoneNumberInCTM cfg0 (world (found [call1]) (Returned accepted) ticking)
         (VStr "+1 (555) 123-4567")) []
  = run (checkPhoneNumberInCTM cfg0 (world (found [call1]) (Returned accepted) ticking)
           (VStr "15551234567")) [].
Proof.
  apply (checkPhoneNumberInCTM_format cfg0 _ "+1 (555) 123-4567" "15551234567" []).
  reflexivity.
Defined.



